(** * Hand Tracking POC: the configuration module [config.py]

    A shallow embedding of the parameter table [Config], of the singleton
    [config] and of the routine [print_config] (with the ways its [print]
    calls and integer conversions can raise), followed by the properties
    the specification states about them. *)

From Stdlib Require Import ZArith List Ascii Reals Lra QArith Qreals.
From Stdlib Require Import PrimFloat.
From stdpp Require Import gmap strings list pretty.

#[local] Set Warnings "-inexact-float".
Local Open Scope Z_scope.
Local Open Scope string_scope.

(** ** Values of the host language *)

(** A BGR colour, the Python tuple [(b, g, r)]. *)
Definition bgr : Type := (Z * Z * Z)%type.

(** [np.array(l, dtype=np.uint8)]: every element is stored on 8 bits.  The
    elements are kept as [Z], reduced modulo 256. *)
Definition np_array_uint8 (l : list Z) : list Z :=
  map (fun x => x mod 256) l.

(** The decimal text of a Python [int]: what [str(n)] returns when the
    interpreter accepts the conversion (see [format_int] below). *)
Definition str (n : Z) : string := pretty n.

(** [s * n] for a string [s] and a count [n]. *)
Fixpoint str_mul (s : string) (n : nat) : string :=
  match n with
  | O => ""
  | S k => s +:+ str_mul s k
  end.

(** ** The class [Config] *)

Record Config : Type := mkConfig {
  (* Camera Settings *)
  CAMERA_WIDTH : Z;
  CAMERA_HEIGHT : Z;
  CAMERA_ID : Z;
  FPS_TARGET : Z;
  (* Skin Color Detection (HSV) *)
  LOWER_SKIN : list Z;
  UPPER_SKIN : list Z;
  (* YCrCb Color Space (Alternative) *)
  USE_YCRCB : bool;
  LOWER_SKIN_YCRCB : list Z;
  UPPER_SKIN_YCRCB : list Z;
  (* Virtual Boundary Settings *)
  BOUNDARY_TYPE : string;
  BOUNDARY_X : Z;
  BOUNDARY_COLOR : bgr;
  BOUNDARY_THICKNESS : Z;
  (* Distance Thresholds (pixels) *)
  SAFE_DISTANCE : Z;
  WARNING_DISTANCE : Z;
  DANGER_DISTANCE : Z;
  (* Visual Settings *)
  STATE_COLORS : gmap string bgr;
  FONT : Z;
  FONT_SCALE_LARGE : float;
  FONT_SCALE_MEDIUM : float;
  FONT_SCALE_SMALL : float;
  FONT_THICKNESS_BOLD : Z;
  FONT_THICKNESS_NORMAL : Z;
  (* Morphological Operations *)
  KERNEL_SIZE : Z;
  MORPH_ITERATIONS : Z;
  (* Detection Settings *)
  MIN_CONTOUR_AREA : Z;
  BLUR_KERNEL_SIZE : Z * Z;
  (* Performance Settings *)
  FPS_BUFFER_SIZE : Z;
  SHOW_DEBUG_WINDOW : bool;
  PRINT_INTERVAL : Z;
  (* Advanced Options *)
  PREFER_LOWER_SCREEN : bool;
  LOWER_SCREEN_THRESHOLD : float;
  MIRROR_CAMERA : bool
}.

(** The singleton [config = Config()]: every attribute has the value of the
    class body. *)
Definition config : Config := {|
  CAMERA_WIDTH := 640;
  CAMERA_HEIGHT := 480;
  CAMERA_ID := 0;
  FPS_TARGET := 8;
  LOWER_SKIN := np_array_uint8 [0; 20; 70];
  UPPER_SKIN := np_array_uint8 [20; 255; 255];
  USE_YCRCB := false;
  LOWER_SKIN_YCRCB := np_array_uint8 [0; 133; 77];
  UPPER_SKIN_YCRCB := np_array_uint8 [255; 173; 127];
  BOUNDARY_TYPE := "line";
  BOUNDARY_X := 320;
  BOUNDARY_COLOR := (0, 0, 255);
  BOUNDARY_THICKNESS := 3;
  SAFE_DISTANCE := 100;
  WARNING_DISTANCE := 50;
  DANGER_DISTANCE := 50;
  STATE_COLORS :=
    <["SAFE" := (0, 255, 0)]>
      (<["WARNING" := (0, 165, 255)]>
         (<["DANGER" := (0, 0, 255)]> ∅));
  FONT := 0;
  FONT_SCALE_LARGE := 1.2%float;
  FONT_SCALE_MEDIUM := 0.8%float;
  FONT_SCALE_SMALL := 0.6%float;
  FONT_THICKNESS_BOLD := 3;
  FONT_THICKNESS_NORMAL := 2;
  KERNEL_SIZE := 5;
  MORPH_ITERATIONS := 2;
  MIN_CONTOUR_AREA := 1000;
  BLUR_KERNEL_SIZE := (5, 5);
  FPS_BUFFER_SIZE := 30;
  SHOW_DEBUG_WINDOW := true;
  PRINT_INTERVAL := 30;
  PREFER_LOWER_SCREEN := false;
  LOWER_SCREEN_THRESHOLD := 0.4%float;
  MIRROR_CAMERA := true
|}.

(** ** The process state and the effects of the module *)

(** The exceptions the statements of the module can raise. *)
Inductive exn : Type :=
| UnicodeEncodeError   (* the stream's codec cannot encode the text *)
| ValueError_closed    (* "I/O operation on closed file." *)
| ValueError_digits.   (* "Exceeds the limit ... for integer string
                          conversion" *)

Inductive result (A : Type) : Type :=
| Ok (a : A)
| Raise (e : exn).
Arguments Ok {A} a.
Arguments Raise {A} e.

(** What [sys.stdout] is: an open text stream, a closed one, or [None]
    (a process started without a standard output). *)
Inductive stream_mode : Type := StreamOpen | StreamClosed | StreamNone.

(** The codec of the text stream, with the error handler [strict]. *)
Inductive encoding : Type := UTF_8 | ASCII | LATIN_1 | CP1252.

(** [sys.stdout]: its mode, its encoding and the text written to it so far.
    Text is a Python [str], held here as the bytes of its UTF-8 form; the
    device behind an open stream takes whatever the codec has encoded. *)
Record Stream : Type := mkStream {
  st_mode : stream_mode;
  st_encoding : encoding;
  st_text : string
}.

(** The state of the running process as far as the module can see it: the
    global [config], the stream [sys.stdout], the interpreter's limit on the
    digits of an integer converted to text ([sys.get_int_max_str_digits()],
    0 when there is none), and the rest of the environment (standard input,
    files, clock, random generator, ...), kept abstract as [Ext]. *)
Record World (Ext : Type) : Type := mkWorld {
  w_config : Config;
  w_stdout : Stream;
  w_max_str_digits : N;
  w_ext : Ext
}.
Arguments mkWorld {Ext} _ _ _ _.
Arguments w_config {Ext} _.
Arguments w_stdout {Ext} _.
Arguments w_max_str_digits {Ext} _.
Arguments w_ext {Ext} _.

(** The line terminator written by [print]. *)
Definition nl : string := String "010"%char EmptyString.

(** *** Encoding text *)

Definition is_continuation (a : ascii) : bool :=
  let x := N_of_ascii a in (128 <=? x)%N && (x <? 192)%N.

Definition continuation_bits (a : ascii) : N := (N_of_ascii a - 128)%N.

(** The code points of a text, read from its UTF-8 form. *)
Fixpoint utf8_decode (s : string) : option (list N) :=
  match s with
  | EmptyString => Some []
  | String a s1 =>
      let x := N_of_ascii a in
      if (x <? 128)%N then
        match utf8_decode s1 with
        | Some cps => Some (x :: cps)
        | None => None
        end
      else if (192 <=? x)%N && (x <? 224)%N then
        match s1 with
        | String b s2 =>
            if is_continuation b then
              match utf8_decode s2 with
              | Some cps =>
                  Some (((x - 192) * 64 + continuation_bits b)%N :: cps)
              | None => None
              end
            else None
        | _ => None
        end
      else if (224 <=? x)%N && (x <? 240)%N then
        match s1 with
        | String b (String c s3) =>
            if is_continuation b && is_continuation c then
              match utf8_decode s3 with
              | Some cps =>
                  Some (((x - 224) * 4096 + continuation_bits b * 64
                         + continuation_bits c)%N :: cps)
              | None => None
              end
            else None
        | _ => None
        end
      else if (240 <=? x)%N && (x <? 248)%N then
        match s1 with
        | String b (String c (String d s4)) =>
            if is_continuation b && is_continuation c && is_continuation d
            then
              match utf8_decode s4 with
              | Some cps =>
                  Some (((x - 240) * 262144 + continuation_bits b * 4096
                         + continuation_bits c * 64
                         + continuation_bits d)%N :: cps)
              | None => None
              end
            else None
        | _ => None
        end
      else None
  end.

(** The code points above U+007F that Windows-1252 has outside the Latin-1
    block U+00A0..U+00FF. *)
Definition cp1252_extra : list N :=
  [ 8364; 8218; 402; 8222; 8230; 8224; 8225; 710; 8240; 352; 8249; 338;
    381; 8216; 8217; 8220; 8221; 8226; 8211; 8212; 732; 8482; 353; 8250;
    339; 382; 376 ]%N.

(** The characters a codec has. *)
Definition has_char (enc : encoding) (cp : N) : bool :=
  match enc with
  | UTF_8 => true
  | ASCII => (cp <? 128)%N
  | LATIN_1 => (cp <? 256)%N
  | CP1252 =>
      (cp <? 128)%N || ((160 <=? cp)%N && (cp <? 256)%N)
      || existsb (N.eqb cp) cp1252_extra
  end.

(** [text.encode(enc)] succeeds. *)
Definition encodable (enc : encoding) (text : string) : bool :=
  match enc with
  | UTF_8 => true
  | _ =>
      match utf8_decode text with
      | Some cps => forallb (has_char enc) cps
      | None => false
      end
  end.

(** *** Converting an integer to text *)

(** CPython refuses to convert an integer to decimal text when the text is
    longer than 640 characters, a limit is set, and the digits are more than
    the limit. *)
Definition int_too_long (limit : N) (n : Z) : bool :=
  let len := N.of_nat (String.length (str n)) in
  let sign := if (n <? 0)%Z then 1%N else 0%N in
  (640 <? len)%N && (0 <? limit)%N && (limit <? len - sign)%N.

Section Effects.
Context {Ext : Type}.

(** A statement: it runs in a world, returns or raises, and leaves a world. *)
Definition M (A : Type) : Type := World Ext -> result A * World Ext.

#[export] Instance M_ret : MRet M := fun A a w => (Ok a, w).

#[export] Instance M_bind : MBind M := fun A B k m w =>
  match m w with
  | (Ok a, w') => k a w'
  | (Raise e, w') => (Raise e, w')
  end.

Definition raise {A : Type} (e : exn) : M A := fun w => (Raise e, w).

(** The world after [text] has reached the standard output. *)
Definition append_text (text : string) (w : World Ext) : World Ext :=
  mkWorld (w_config w)
    (mkStream (st_mode (w_stdout w)) (st_encoding (w_stdout w))
       (st_text (w_stdout w) +:+ text))
    (w_max_str_digits w) (w_ext w).

(** [config.NAME]: read an attribute of the global [config]. *)
Definition attr {A : Type} (name : Config -> A) : M A :=
  fun w => (Ok (name (w_config w)), w).

(** [{n}] in an f-string, for an integer [n]: [format(n, "")], which is
    [str(n)] unless the integer is too long for the interpreter. *)
Definition format_int (n : Z) : M string :=
  fun w =>
    if int_too_long (w_max_str_digits w) n
    then (Raise ValueError_digits, w)
    else (Ok (str n), w).

(** [sys.stdout.write(text)]. *)
Definition write (text : string) : M unit :=
  fun w =>
    match st_mode (w_stdout w) with
    | StreamClosed => (Raise ValueError_closed, w)
    | _ =>
        if encodable (st_encoding (w_stdout w)) text
        then (Ok tt, append_text text w)
        else (Raise UnicodeEncodeError, w)
    end.

(** [print(s)]: nothing when [sys.stdout] is [None]; otherwise [s] is
    written, then the line terminator.  Returns [None], which is [tt]
    here. *)
Definition print (s : string) : M unit :=
  fun w =>
    match st_mode (w_stdout w) with
    | StreamNone => (Ok tt, w)
    | _ => (write s ;; write nl) w
    end.

(** [def print_config()].  Each f-string reads its attributes from the
    global [config] and formats them, left to right, when it is evaluated;
    the body ends without a [return], so the call returns [None]. *)
Definition print_config : M unit :=
  print (str_mul "=" 50) ;;
  print "HAND TRACKING POC - CONFIGURATION" ;;
  print (str_mul "=" 50) ;;
  (width ← attr CAMERA_WIDTH ≫= format_int;
   height ← attr CAMERA_HEIGHT ≫= format_int;
   print ("Camera: " +:+ width +:+ "x" +:+ height)) ;;
  (fps ← attr FPS_TARGET ≫= format_int;
   print ("Target FPS: ≥" +:+ fps)) ;;
  (ycrcb ← attr USE_YCRCB;
   print ("Color Space: " +:+ (if ycrcb : bool then "YCrCb" else "HSV"))) ;;
  (x ← attr BOUNDARY_X ≫= format_int;
   print ("Boundary Position: x=" +:+ x)) ;;
  print (nl +:+ "Distance Thresholds:") ;;
  (safe ← attr SAFE_DISTANCE ≫= format_int;
   print ("  SAFE:    > " +:+ safe +:+ "px")) ;;
  (danger ← attr DANGER_DISTANCE ≫= format_int;
   safe ← attr SAFE_DISTANCE ≫= format_int;
   print ("  WARNING: " +:+ danger +:+ "-" +:+ safe +:+ "px")) ;;
  (danger ← attr DANGER_DISTANCE ≫= format_int;
   print ("  DANGER:  < " +:+ danger +:+ "px")) ;;
  print (str_mul "=" 50) ;;
  mret tt.

End Effects.

Arguments str : simpl never.

(** The text of a sequence of printed lines: each one followed by a newline. *)
Fixpoint unlines (ls : list string) : string :=
  match ls with
  | [] => ""
  | l :: ls' => l +:+ nl +:+ unlines ls'
  end.

(** [config.WARNING_DISTANCE = v]: the assignment of one attribute. *)
Definition set_WARNING_DISTANCE (v : Z) (c : Config) : Config :=
  mkConfig
    (CAMERA_WIDTH c) (CAMERA_HEIGHT c) (CAMERA_ID c) (FPS_TARGET c)
    (LOWER_SKIN c) (UPPER_SKIN c)
    (USE_YCRCB c) (LOWER_SKIN_YCRCB c) (UPPER_SKIN_YCRCB c)
    (BOUNDARY_TYPE c) (BOUNDARY_X c) (BOUNDARY_COLOR c) (BOUNDARY_THICKNESS c)
    (SAFE_DISTANCE c) v (DANGER_DISTANCE c)
    (STATE_COLORS c) (FONT c)
    (FONT_SCALE_LARGE c) (FONT_SCALE_MEDIUM c) (FONT_SCALE_SMALL c)
    (FONT_THICKNESS_BOLD c) (FONT_THICKNESS_NORMAL c)
    (KERNEL_SIZE c) (MORPH_ITERATIONS c)
    (MIN_CONTOUR_AREA c) (BLUR_KERNEL_SIZE c)
    (FPS_BUFFER_SIZE c) (SHOW_DEBUG_WINDOW c) (PRINT_INTERVAL c)
    (PREFER_LOWER_SCREEN c) (LOWER_SCREEN_THRESHOLD c) (MIRROR_CAMERA c).

(** The same world with another global [config]. *)
Definition with_config {Ext : Type} (c : Config) (w : World Ext) : World Ext :=
  mkWorld c (w_stdout w) (w_max_str_digits w) (w_ext w).

(** The boundary geometries listed beside [BOUNDARY_TYPE]
    ([# Options: "line", "box", "circle"]). *)
Definition boundary_types : list string := ["line"; "box"; "circle"].

(** The componentwise order of two arrays of the same shape. *)
Definition array_le (lo hi : list Z) : Prop := Forall2 Z.le lo hi.

(** Every element of an array is a [uint8] value. *)
Definition all_uint8 (a : list Z) : Prop := Forall (fun x => 0 <= x <= 255)%Z a.

(** ** The Boundary Evaluator of the specification *)

(** Modelled from the spec: the enum BoundaryState of section 3, which
    [config.py] does not declare (it only uses the names as the keys of
    [STATE_COLORS]). *)
Inductive BoundaryState : Type := SAFE | WARNING | DANGER.

(** Modelled from the spec: the name of a BoundaryState, as section 3
    writes it. *)
Definition state_name (s : BoundaryState) : string :=
  match s with
  | SAFE => "SAFE"
  | WARNING => "WARNING"
  | DANGER => "DANGER"
  end.

(** Modelled from the spec: the classification rule of section 4.3, whose
    code (the Boundary Evaluator) is not part of [config.py].  One
    constructor per clause of the rule, for thresholds [safe] and [danger]
    and a real distance [d]. *)
Inductive classifies (safe danger d : R) : BoundaryState -> Prop :=
| classifies_SAFE : (d > safe)%R -> classifies safe danger d SAFE
| classifies_WARNING :
    (danger <= d <= safe)%R -> classifies safe danger d WARNING
| classifies_DANGER : (d < danger)%R -> classifies safe danger d DANGER.

(** Modelled from the spec: the rule of section 4.3 instantiated with the
    thresholds [SAFE_DISTANCE] and [DANGER_DISTANCE] of a configuration. *)
Definition classifies_with (c : Config) : R -> BoundaryState -> Prop :=
  classifies (IZR (SAFE_DISTANCE c)) (IZR (DANGER_DISTANCE c)).

(** Modelled from the spec: the same rule as a program on rational
    distances, testing the clauses in the order section 4.3 lists them. *)
Definition classify (c : Config) (d : Q) : option BoundaryState :=
  let safe := inject_Z (SAFE_DISTANCE c) in
  let danger := inject_Z (DANGER_DISTANCE c) in
  if Qlt_le_dec safe d then Some SAFE
  else if Qle_bool danger d && Qle_bool d safe then Some WARNING
  else if Qlt_le_dec d danger then Some DANGER
  else None.

(** The lines [print_config] is described to write, for a configuration [c]. *)
Definition printed_lines (c : Config) : list string :=
  [ "==================================================";
    "HAND TRACKING POC - CONFIGURATION";
    "==================================================";
    "Camera: " +:+ str (CAMERA_WIDTH c) +:+ "x" +:+ str (CAMERA_HEIGHT c);
    "Target FPS: ≥" +:+ str (FPS_TARGET c);
    "Color Space: " +:+ (if USE_YCRCB c then "YCrCb" else "HSV");
    "Boundary Position: x=" +:+ str (BOUNDARY_X c);
    "";
    "Distance Thresholds:";
    "  SAFE:    > " +:+ str (SAFE_DISTANCE c) +:+ "px";
    "  WARNING: " +:+ str (DANGER_DISTANCE c) +:+ "-"
      +:+ str (SAFE_DISTANCE c) +:+ "px";
    "  DANGER:  < " +:+ str (DANGER_DISTANCE c) +:+ "px";
    "==================================================" ].

(** ** Reading the report *)

(** The attributes that [print_config] reads have the same values in two
    configurations. *)
Definition same_report_fields (c c' : Config) : Prop :=
  CAMERA_WIDTH c = CAMERA_WIDTH c'
  /\ CAMERA_HEIGHT c = CAMERA_HEIGHT c'
  /\ FPS_TARGET c = FPS_TARGET c'
  /\ USE_YCRCB c = USE_YCRCB c'
  /\ BOUNDARY_X c = BOUNDARY_X c'
  /\ SAFE_DISTANCE c = SAFE_DISTANCE c'
  /\ DANGER_DISTANCE c = DANGER_DISTANCE c'.

Definition is_digit (a : ascii) : bool :=
  match a with
  | "0" | "1" | "2" | "3" | "4" | "5" | "6" | "7" | "8" | "9" => true
  | _ => false
  end%char.

Fixpoint all_digits (s : string) : bool :=
  match s with
  | EmptyString => true
  | String a s' => is_digit a && all_digits s'
  end.

(** The text of a decimal integer: digits, at least one, after an optional
    minus sign. *)
Definition int_literal (s : string) : Prop :=
  exists d : string,
    all_digits d = true /\ d <> "" /\ (s = d \/ s = String "-" d).

(** The number of line terminators in a text. *)
Fixpoint count_nl (s : string) : nat :=
  match s with
  | EmptyString => 0
  | String a s' =>
      (if Ascii.eqb a "010" then 1 else 0) + count_nl s'
  end%nat.

(** ** Conditions and relations on worlds *)

(** The standard output takes the whole report: it is open and its codec
    has the sign of the target-FPS line. *)
Definition stdout_takes_report (st : Stream) : Prop :=
  st_mode st = StreamOpen /\ encodable (st_encoding st) "≥" = true.

(** Every integer of the report can be converted under the digit limit. *)
Definition report_fits (limit : N) (c : Config) : Prop :=
  int_too_long limit (CAMERA_WIDTH c) = false
  /\ int_too_long limit (CAMERA_HEIGHT c) = false
  /\ int_too_long limit (FPS_TARGET c) = false
  /\ int_too_long limit (BOUNDARY_X c) = false
  /\ int_too_long limit (SAFE_DISTANCE c) = false
  /\ int_too_long limit (DANGER_DISTANCE c) = false.

(** Whatever its outcome, a statement only adds text to the standard
    output. *)
Definition grows {Ext A : Type} (m : M (Ext:=Ext) A) : Prop :=
  forall w, exists x : string, snd (m w) = append_text x w.

(** Two worlds, possibly of different environments, that a run of the
    report cannot tell apart: the attributes it reads, the mode and the
    codec of the standard output and the digit limit agree, and since the
    texts [t1] and [t2] the same text has been written to both. *)
Definition related {E1 E2 : Type} (t1 t2 : string)
    (u1 : World E1) (u2 : World E2) : Prop :=
  same_report_fields (w_config u1) (w_config u2)
  /\ st_mode (w_stdout u1) = st_mode (w_stdout u2)
  /\ st_encoding (w_stdout u1) = st_encoding (w_stdout u2)
  /\ w_max_str_digits u1 = w_max_str_digits u2
  /\ exists x : string,
       st_text (w_stdout u1) = t1 +:+ x /\ st_text (w_stdout u2) = t2 +:+ x.

(** Two statements that, run in related worlds, have the same outcome and
    leave related worlds. *)
Definition sim {E1 E2 A : Type} (t1 t2 : string)
    (m1 : M (Ext:=E1) A) (m2 : M (Ext:=E2) A) : Prop :=
  forall u1 u2,
    related t1 t2 u1 u2 ->
    fst (m1 u1) = fst (m2 u2) /\ related t1 t2 (snd (m1 u1)) (snd (m2 u2)).

(** ** Sample worlds *)

(** A terminal in UTF-8, under CPython's default digit limit. *)
Definition utf8_terminal (c : Config) (written : string) : World unit :=
  mkWorld c (mkStream StreamOpen UTF_8 written) 4300 tt.

(** The same with the standard output in ASCII ([PYTHONIOENCODING=ascii]). *)
Definition ascii_terminal (c : Config) (written : string) : World unit :=
  mkWorld c (mkStream StreamOpen ASCII written) 4300 tt.

(** A standard output in ASCII that already holds some text, in a process
    with another environment. *)
Definition ascii_log (c : Config) : World nat :=
  mkWorld c (mkStream StreamOpen ASCII "earlier output") 4300 7%nat.

(** [config.CAMERA_WIDTH = v]: the assignment of one attribute. *)
Definition set_CAMERA_WIDTH (v : Z) (c : Config) : Config :=
  mkConfig
    v (CAMERA_HEIGHT c) (CAMERA_ID c) (FPS_TARGET c)
    (LOWER_SKIN c) (UPPER_SKIN c)
    (USE_YCRCB c) (LOWER_SKIN_YCRCB c) (UPPER_SKIN_YCRCB c)
    (BOUNDARY_TYPE c) (BOUNDARY_X c) (BOUNDARY_COLOR c) (BOUNDARY_THICKNESS c)
    (SAFE_DISTANCE c) (WARNING_DISTANCE c) (DANGER_DISTANCE c)
    (STATE_COLORS c) (FONT c)
    (FONT_SCALE_LARGE c) (FONT_SCALE_MEDIUM c) (FONT_SCALE_SMALL c)
    (FONT_THICKNESS_BOLD c) (FONT_THICKNESS_NORMAL c)
    (KERNEL_SIZE c) (MORPH_ITERATIONS c)
    (MIN_CONTOUR_AREA c) (BLUR_KERNEL_SIZE c)
    (FPS_BUFFER_SIZE c) (SHOW_DEBUG_WINDOW c) (PRINT_INTERVAL c)
    (PREFER_LOWER_SCREEN c) (LOWER_SCREEN_THRESHOLD c) (MIRROR_CAMERA c).

(** * Properties *)

(** ** The embedding at work *)

Example str_640 : str 640 = "640".
Proof. vm_compute. reflexivity. Qed.

Example str_neg : str (-5) = "-5".
Proof. vm_compute. reflexivity. Qed.

Example str_0 : str 0 = "0".
Proof. vm_compute. reflexivity. Qed.

Example classify_150 : classify config (150 # 1) = Some SAFE.
Proof. reflexivity. Qed.

Example classify_75_5 : classify config (151 # 2) = Some WARNING.
Proof. reflexivity. Qed.

Example classify_neg : classify config (-3 # 7) = Some DANGER.
Proof. reflexivity. Qed.

(** ** Strings *)

Lemma string_app_assoc (s t u : string) : (s +:+ t) +:+ u = s +:+ (t +:+ u).
Proof.
  induction s as [|a s IH]; [reflexivity|].
  change (String a ((s +:+ t) +:+ u) = String a (s +:+ (t +:+ u))).
  now rewrite IH.
Qed.

Lemma str_mul_eq_50 :
  str_mul "=" 50 = "==================================================".
Proof. vm_compute. reflexivity. Qed.

Lemma string_app_nil_r (s : string) : s +:+ "" = s.
Proof.
  induction s as [|a s IH]; [reflexivity|].
  change (String a (s +:+ "") = String a s). now rewrite IH.
Qed.

(** ** Running statements *)

Section Running.
Context {Ext : Type}.
Implicit Types w : World Ext.

Lemma append_text_nil w : append_text "" w = w.
Proof.
  destruct w as [c [m e t] l x]. unfold append_text; simpl.
  now rewrite string_app_nil_r.
Qed.

Lemma append_text_append (x y : string) w :
  append_text y (append_text x w) = append_text (x +:+ y) w.
Proof. unfold append_text; simpl. now rewrite string_app_assoc. Qed.

(** A statement that returns hands its value and its world to the next. *)
Lemma bind_run {A B : Type} (m : M A) (k : A -> M B) w a w1 r :
  m w = (Ok a, w1) -> k a w1 = r -> (m ≫= k) w = r.
Proof.
  intros Hm Hk. unfold mbind, M_bind. now rewrite Hm.
Qed.

(** A sequence returns only if its first statement did. *)
Lemma bind_Ok_inv {A B : Type} (m : M A) (k : A -> M B) w b w2 :
  (m ≫= k) w = (Ok b, w2) ->
  exists a w1, m w = (Ok a, w1) /\ k a w1 = (Ok b, w2).
Proof.
  unfold mbind, M_bind. destruct (m w) as [[a|e] w1]; intros H.
  - now exists a, w1.
  - discriminate.
Qed.

Lemma attr_run {A : Type} (name : Config -> A) w :
  attr name w = (Ok (name (w_config w)), w).
Proof. reflexivity. Qed.

Lemma format_int_run (n : Z) w :
  int_too_long (w_max_str_digits w) n = false ->
  format_int n w = (Ok (str n), w).
Proof. intros H. unfold format_int. now rewrite H. Qed.

Lemma format_int_Ok_inv (n : Z) w s w1 :
  format_int n w = (Ok s, w1) ->
  int_too_long (w_max_str_digits w) n = false /\ s = str n /\ w1 = w.
Proof.
  unfold format_int. destruct (int_too_long _ n); intros H; [discriminate|].
  injection H as <- <-. now repeat split.
Qed.

Lemma encodable_nl (enc : encoding) : encodable enc nl = true.
Proof. destruct enc; reflexivity. Qed.

Lemma write_Ok_inv (text : string) w u w1 :
  write text w = (Ok u, w1) ->
  encodable (st_encoding (w_stdout w)) text = true
  /\ w1 = append_text text w.
Proof.
  unfold write.
  destruct (st_mode (w_stdout w));
    destruct (encodable (st_encoding (w_stdout w)) text);
    intros H; try discriminate; injection H as _ <-; now split.
Qed.

(** On an open stream, [print] writes the line when the codec takes it. *)
Lemma print_run (s : string) w :
  st_mode (w_stdout w) = StreamOpen ->
  encodable (st_encoding (w_stdout w)) s = true ->
  print s w = (Ok tt, append_text (s +:+ nl) w).
Proof.
  intros Hm He. unfold print. rewrite Hm.
  apply bind_run with (a := tt) (w1 := append_text s w).
  - unfold write. now rewrite Hm, He.
  - unfold write. cbn [append_text w_stdout st_mode st_encoding].
    rewrite Hm, encodable_nl. now rewrite append_text_append.
Qed.

Lemma print_run_utf8 (s : string) w :
  st_mode (w_stdout w) = StreamOpen ->
  st_encoding (w_stdout w) = UTF_8 ->
  print s w = (Ok tt, append_text (s +:+ nl) w).
Proof. intros Hm He. apply print_run; [exact Hm|]. now rewrite He. Qed.

(** On an open stream, a [print] that returns has written its line. *)
Lemma print_Ok_inv (s : string) w u w1 :
  st_mode (w_stdout w) = StreamOpen ->
  print s w = (Ok u, w1) ->
  encodable (st_encoding (w_stdout w)) s = true
  /\ w1 = append_text (s +:+ nl) w.
Proof.
  intros Hm. unfold print. rewrite Hm. intros H.
  apply bind_Ok_inv in H as (a & w0 & H1 & H2).
  apply write_Ok_inv in H1 as [He ->].
  apply write_Ok_inv in H2 as [_ ->].
  split; [exact He|apply append_text_append].
Qed.

(** *** What a statement leaves alone *)

Lemma grows_ret {A : Type} (a : A) : grows (Ext:=Ext) (mret a).
Proof. intros w. exists "". symmetry. apply append_text_nil. Qed.

Lemma grows_attr {A : Type} (name : Config -> A) : grows (Ext:=Ext) (attr name).
Proof. intros w. exists "". symmetry. apply append_text_nil. Qed.

Lemma grows_format_int (n : Z) : grows (Ext:=Ext) (format_int n).
Proof.
  intros w. exists "". unfold format_int.
  destruct (int_too_long _ n); symmetry; apply append_text_nil.
Qed.

Lemma grows_write (text : string) : grows (Ext:=Ext) (write text).
Proof.
  intros w. unfold write.
  destruct (st_mode (w_stdout w));
    destruct (encodable (st_encoding (w_stdout w)) text);
    first [ now exists text | exists ""; symmetry; apply append_text_nil ].
Qed.

Lemma grows_bind {A B : Type} (m : M (Ext:=Ext) A) (k : A -> M B) :
  grows m -> (forall a, grows (k a)) -> grows (m ≫= k).
Proof.
  intros Hm Hk w. unfold mbind, M_bind.
  destruct (Hm w) as [x Hx]. destruct (m w) as [[a|e] w1]; simpl in Hx.
  - destruct (Hk a w1) as [y Hy]. exists (x +:+ y).
    now rewrite Hy, Hx, append_text_append.
  - now exists x.
Qed.

Lemma grows_print (s : string) : grows (Ext:=Ext) (print s).
Proof.
  intros w. unfold print.
  destruct (st_mode (w_stdout w)) eqn:Hm.
  - apply (grows_bind (write s) (fun _ => write nl));
      auto using grows_write.
  - apply (grows_bind (write s) (fun _ => write nl));
      auto using grows_write.
  - exists "". symmetry. apply append_text_nil.
Qed.

Lemma print_config_grows : grows (Ext:=Ext) print_config.
Proof.
  unfold print_config.
  repeat (apply grows_bind; [|intros]);
    auto using grows_print, grows_attr, grows_format_int, grows_ret.
Qed.

End Running.

(** *** The whole report *)

Section Report.
Context {Ext : Type}.
Implicit Types w : World Ext.

Lemma encodable_sign (enc : encoding) :
  encodable enc "≥" = true -> enc = UTF_8.
Proof. destruct enc; [reflexivity|discriminate..]. Qed.

Ltac run_step Hm He :=
  first
    [ apply attr_run
    | apply format_int_run; assumption
    | apply print_run_utf8; [exact Hm|exact He]
    | eapply bind_run; [run_step Hm He|cbv beta; run_step Hm He] ].

(** When the standard output takes the report and the integers fit, the
    call returns [None] and the thirteen lines are written. *)
Lemma print_config_ok w :
  stdout_takes_report (w_stdout w) ->
  report_fits (w_max_str_digits w) (w_config w) ->
  print_config w
  = (Ok tt, append_text (unlines (printed_lines (w_config w))) w).
Proof.
  intros [Hm He] (Hwidth & Hheight & Hfps & Hx & Hsafe & Hdanger).
  apply encodable_sign in He.
  destruct w as [c [m e t] l x]. simpl in *. subst m e.
  unfold print_config. rewrite str_mul_eq_50.
  repeat (eapply bind_run; [run_step (eq_refl StreamOpen) (eq_refl UTF_8)|]).
  cbv beta iota delta
    [mret M_ret append_text w_config w_stdout w_max_str_digits w_ext
     st_mode st_encoding st_text printed_lines unlines].
  do 3 f_equal.
  rewrite !string_app_assoc. reflexivity.
Qed.

Ltac invert_run H :=
  repeat match type of H with
  | (_ ≫= _) _ = (Ok _, _) =>
      let H1 := fresh "Hstep" in
      apply bind_Ok_inv in H as (? & ? & H1 & H);
      invert_run H1
  | attr _ _ = (Ok _, _) =>
      rewrite attr_run in H; injection H as <- <-
  | format_int _ _ = (Ok _, _) =>
      apply format_int_Ok_inv in H as (_ & -> & ->)
  | print _ _ = (Ok _, _) =>
      apply print_Ok_inv in H as (_ & ->); [|reflexivity]
  | mret _ _ = (Ok _, _) =>
      injection H as <- <-
  end.

(** On an open standard output, a call that returns has written the
    thirteen lines. *)
Lemma print_config_Ok_inv w u w' :
  st_mode (w_stdout w) = StreamOpen ->
  print_config w = (Ok u, w') ->
  w' = append_text (unlines (printed_lines (w_config w))) w.
Proof.
  intros Hm H.
  destruct w as [c [m e t] l x]. simpl in Hm. subst m.
  unfold print_config in H. rewrite str_mul_eq_50 in H.
  invert_run H.
  cbv beta iota delta
    [append_text w_config w_stdout w_max_str_digits w_ext
     st_mode st_encoding st_text printed_lines unlines].
  do 2 f_equal.
  rewrite !string_app_assoc. reflexivity.
Qed.

End Report.

(** *** Runs that cannot be told apart *)

Section Simulation.
Context {E1 E2 : Type}.
Variables t1 t2 : string.

Lemma sim_ret {A : Type} (a : A) :
  sim (E1:=E1) (E2:=E2) t1 t2 (mret a) (mret a).
Proof. intros u1 u2 H. now split. Qed.

Lemma sim_attr {A : Type} (name : Config -> A) :
  (forall c c', same_report_fields c c' -> name c = name c') ->
  sim (E1:=E1) (E2:=E2) t1 t2 (attr name) (attr name).
Proof.
  intros Hname u1 u2 H. split; [|exact H].
  simpl. f_equal. apply Hname, H.
Qed.

Lemma sim_format_int (n : Z) :
  sim (E1:=E1) (E2:=E2) t1 t2 (format_int n) (format_int n).
Proof.
  intros u1 u2 H. unfold format_int.
  pose proof H as (_ & _ & _ & Hl & _). rewrite Hl.
  destruct (int_too_long _ n); (split; [reflexivity|exact H]).
Qed.

Lemma related_append (x : string) (u1 : World E1) (u2 : World E2) :
  related t1 t2 u1 u2 ->
  related t1 t2 (append_text x u1) (append_text x u2).
Proof.
  intros (Hc & Hm & He & Hl & y & H1 & H2).
  unfold related. simpl.
  split; [exact Hc|]. split; [exact Hm|]. split; [exact He|].
  split; [exact Hl|].
  exists (y +:+ x). now rewrite H1, H2, !string_app_assoc.
Qed.

Lemma sim_write (text : string) :
  sim (E1:=E1) (E2:=E2) t1 t2 (write text) (write text).
Proof.
  intros u1 u2 H. unfold write.
  pose proof H as (_ & Hm & He & _). rewrite Hm, He.
  destruct (st_mode (w_stdout u2));
    destruct (encodable (st_encoding (w_stdout u2)) text);
    (split; [reflexivity|]); simpl;
    first [ exact H | now apply related_append ].
Qed.

Lemma sim_bind {A B : Type}
    (m1 : M (Ext:=E1) A) (m2 : M (Ext:=E2) A)
    (k1 : A -> M (Ext:=E1) B) (k2 : A -> M (Ext:=E2) B) :
  sim t1 t2 m1 m2 -> (forall a, sim t1 t2 (k1 a) (k2 a)) ->
  sim t1 t2 (m1 ≫= k1) (m2 ≫= k2).
Proof.
  intros Hm Hk u1 u2 H. unfold mbind, M_bind.
  destruct (Hm u1 u2 H) as [Hr Hw].
  destruct (m1 u1) as [[a1|e1] v1], (m2 u2) as [[a2|e2] v2];
    simpl in Hr, Hw; try discriminate.
  - injection Hr as <-. now apply Hk.
  - injection Hr as <-. now split.
Qed.

Lemma sim_print (s : string) :
  sim (E1:=E1) (E2:=E2) t1 t2 (print s) (print s).
Proof.
  intros u1 u2 H. unfold print.
  assert (Hm : st_mode (w_stdout u1) = st_mode (w_stdout u2)) by apply H.
  rewrite Hm.
  destruct (st_mode (w_stdout u2));
    first [ apply (sim_bind (write s) (write s)
                     (fun _ => write nl) (fun _ => write nl));
            auto using sim_write
          | now split ].
Qed.

(** Related worlds give [print_config] the same outcome. *)
Lemma print_config_sim :
  sim (E1:=E1) (E2:=E2) t1 t2 print_config print_config.
Proof.
  unfold print_config.
  repeat (apply sim_bind; [|intros]);
    first [ apply sim_print | apply sim_format_int | apply sim_ret
          | apply sim_attr; now intros c c' (?&?&?&?&?&?&?) ].
Qed.

End Simulation.

(** *** Sample runs *)

Example print_config_shipped :
  print_config (utf8_terminal config "") =
  (Ok tt,
   utf8_terminal config
     (unlines
        [ "==================================================";
          "HAND TRACKING POC - CONFIGURATION";
          "==================================================";
          "Camera: 640x480";
          "Target FPS: ≥8";
          "Color Space: HSV";
          "Boundary Position: x=320";
          "";
          "Distance Thresholds:";
          "  SAFE:    > 100px";
          "  WARNING: 50-100px";
          "  DANGER:  < 50px";
          "==================================================" ])).
Proof. vm_compute. reflexivity. Qed.

(** A closed standard output: the first [print] raises, nothing is
    written. *)
Example print_config_closed_stdout :
  print_config (mkWorld config (mkStream StreamClosed UTF_8 "") 4300 tt) =
  (Raise ValueError_closed,
   mkWorld config (mkStream StreamClosed UTF_8 "") 4300 tt).
Proof. vm_compute. reflexivity. Qed.

(** No standard output: the call returns [None] and writes nothing. *)
Example print_config_no_stdout :
  print_config (mkWorld config (mkStream StreamNone UTF_8 "") 4300 tt) =
  (Ok tt, mkWorld config (mkStream StreamNone UTF_8 "") 4300 tt).
Proof. vm_compute. reflexivity. Qed.

(** A width of 641 digits under a limit of 640: the conversion raises after
    the banner. *)
Example print_config_digit_limit :
  let c := set_CAMERA_WIDTH (10 ^ 640) config in
  print_config (mkWorld c (mkStream StreamOpen UTF_8 "") 640 tt) =
  (Raise ValueError_digits,
   mkWorld c
     (mkStream StreamOpen UTF_8
        (unlines
           [ "==================================================";
             "HAND TRACKING POC - CONFIGURATION";
             "==================================================" ]))
     640 tt).
Proof. vm_compute. reflexivity. Qed.

(** ** The report of [print_config] *)

Lemma same_report_fields_refl (c : Config) : same_report_fields c c.
Proof. now repeat split. Qed.

Lemma report_fits_config (limit : N) : report_fits limit config.
Proof. repeat split; vm_compute; reflexivity. Qed.

(** Worlds that agree on what the report reads have the same outcome and
    get the same text. *)
Lemma print_config_same_outcome {E1 E2 : Type}
    (w1 : World E1) (w2 : World E2) :
  same_report_fields (w_config w1) (w_config w2) ->
  st_mode (w_stdout w1) = st_mode (w_stdout w2) ->
  st_encoding (w_stdout w1) = st_encoding (w_stdout w2) ->
  w_max_str_digits w1 = w_max_str_digits w2 ->
  fst (print_config w1) = fst (print_config w2)
  /\ exists text : string,
       st_text (w_stdout (snd (print_config w1)))
       = st_text (w_stdout w1) +:+ text
       /\ st_text (w_stdout (snd (print_config w2)))
          = st_text (w_stdout w2) +:+ text.
Proof.
  intros Hc Hm He Hl.
  assert (H : related (st_text (w_stdout w1)) (st_text (w_stdout w2)) w1 w2).
  { unfold related. repeat (split; [assumption|]).
    exists "". now rewrite !string_app_nil_r. }
  destruct (print_config_sim _ _ w1 w2 H) as (Hr & _ & _ & _ & _ & Hx).
  split; [exact Hr|exact Hx].
Qed.

Example print_config_ascii_run :
  print_config (ascii_terminal config "") =
  (Raise UnicodeEncodeError,
   ascii_terminal config
     (unlines
        [ "==================================================";
          "HAND TRACKING POC - CONFIGURATION";
          "==================================================";
          "Camera: 640x480" ])).
Proof. vm_compute. reflexivity. Qed.




(** C4: a call of [print_config] does not mutate the configuration: the
    global [config] after the call is the one before it, so every attribute
    reads the same; the shipped singleton stays the shipped singleton. *)
Theorem print_config_keeps_config :
  (forall (Ext : Type) (w : World Ext),
      w_config (snd (print_config w)) = w_config w)
  /\ (forall (Ext : Type) (w : World Ext) (A : Type) (name : Config -> A),
         fst (attr name (snd (print_config w))) = fst (attr name w))
  /\ (forall (Ext : Type) (out : Stream) (limit : N) (e : Ext),
         w_config (snd (print_config (mkWorld config out limit e))) = config).
Proof.
  repeat split; intros;
    match goal with
    | |- context [print_config ?w] =>
        destruct (print_config_grows w) as [x ->]
    end; reflexivity.
Qed.




(** ** The parameter table *)

(** C6: [STATE_COLORS] has exactly the keys 'SAFE', 'WARNING' and 'DANGER',
    each bound to a BGR triple: every BoundaryState has a colour and every
    key with a colour is the name of a BoundaryState. *)
Theorem STATE_COLORS_keys :
  dom (STATE_COLORS config) = ({[ "SAFE"; "WARNING"; "DANGER" ]} : gset string)
  /\ STATE_COLORS config !! "SAFE" = Some (0, 255, 0)
  /\ STATE_COLORS config !! "WARNING" = Some (0, 165, 255)
  /\ STATE_COLORS config !! "DANGER" = Some (0, 0, 255)
  /\ (forall s : BoundaryState,
         is_Some (STATE_COLORS config !! state_name s))
  /\ (forall k : string,
         is_Some (STATE_COLORS config !! k) ->
         exists s : BoundaryState, state_name s = k).
Proof.
  assert (Hdom : dom (STATE_COLORS config)
                 = ({[ "SAFE"; "WARNING"; "DANGER" ]} : gset string)).
  { unfold config; simpl. rewrite !dom_insert_L, dom_empty_L. set_solver. }
  split; [exact Hdom|].
  repeat split.
  - intros []; simpl; eexists; reflexivity.
  - intros k Hk. apply elem_of_dom in Hk. rewrite Hdom in Hk.
    apply elem_of_union in Hk as [Hk|Hk];
      [apply elem_of_union in Hk as [Hk|Hk]|];
      apply elem_of_singleton in Hk; subst k.
    + now exists SAFE.
    + now exists WARNING.
    + now exists DANGER.
Qed.

(** C7: the configured [BOUNDARY_TYPE] is one of the admissible boundary
    geometries "line", "box", "circle". *)
Theorem BOUNDARY_TYPE_admissible :
  In (BOUNDARY_TYPE config) boundary_types
  /\ boundary_types = ["line"; "box"; "circle"]
  /\ BOUNDARY_TYPE config = "line".
Proof. repeat split. left. reflexivity. Qed.

(** C9: componentwise, [LOWER_SKIN <= UPPER_SKIN] and
    [LOWER_SKIN_YCRCB <= UPPER_SKIN_YCRCB], and every component of the four
    arrays is in 0..255; storing the literals on 8 bits changed none of
    them. *)
Theorem skin_bounds_ordered :
  array_le (LOWER_SKIN config) (UPPER_SKIN config)
  /\ array_le (LOWER_SKIN_YCRCB config) (UPPER_SKIN_YCRCB config)
  /\ all_uint8 (LOWER_SKIN config)
  /\ all_uint8 (UPPER_SKIN config)
  /\ all_uint8 (LOWER_SKIN_YCRCB config)
  /\ all_uint8 (UPPER_SKIN_YCRCB config)
  /\ LOWER_SKIN config = [0; 20; 70]
  /\ UPPER_SKIN config = [20; 255; 255]
  /\ LOWER_SKIN_YCRCB config = [0; 133; 77]
  /\ UPPER_SKIN_YCRCB config = [255; 173; 127].
Proof.
  assert (Hl : LOWER_SKIN config = [0; 20; 70]) by reflexivity.
  assert (Hu : UPPER_SKIN config = [20; 255; 255]) by reflexivity.
  assert (Hly : LOWER_SKIN_YCRCB config = [0; 133; 77]) by reflexivity.
  assert (Huy : UPPER_SKIN_YCRCB config = [255; 173; 127]) by reflexivity.
  rewrite Hl, Hu, Hly, Huy. unfold array_le, all_uint8.
  repeat split; repeat constructor; lia.
Qed.

(** C10: [BOUNDARY_X] is half of [CAMERA_WIDTH] (320 of 640), so the line
    is at the horizontal centre of the frame, with
    [0 <= BOUNDARY_X < CAMERA_WIDTH]. *)
Theorem BOUNDARY_X_centre :
  BOUNDARY_X config = CAMERA_WIDTH config / 2
  /\ 2 * BOUNDARY_X config = CAMERA_WIDTH config
  /\ BOUNDARY_X config = 320
  /\ CAMERA_WIDTH config = 640
  /\ (0 <= BOUNDARY_X config < CAMERA_WIDTH config)%Z.
Proof. simpl. repeat split; lia. Qed.

(** C8: in the shipped table [WARNING_DISTANCE] and [DANGER_DISTANCE] are
    both 50 and [DANGER_DISTANCE <= SAFE_DISTANCE]; [print_config] does not
    read [WARNING_DISTANCE]: the WARNING line it prints (when it returns on
    an open standard output) starts at [DANGER_DISTANCE], and assigning any
    other value to [WARNING_DISTANCE] changes neither the outcome of the
    call nor what it prints. *)
Theorem WARNING_DISTANCE_redundant :
  WARNING_DISTANCE config = DANGER_DISTANCE config
  /\ WARNING_DISTANCE config = 50
  /\ DANGER_DISTANCE config = 50
  /\ (DANGER_DISTANCE config <= SAFE_DISTANCE config)%Z
  /\ (forall (Ext : Type) (w : World Ext),
         st_mode (w_stdout w) = StreamOpen ->
         fst (print_config w) = Ok tt ->
         exists before after : string,
           st_text (w_stdout (snd (print_config w))) =
             before +:+ "  WARNING: " +:+ str (DANGER_DISTANCE (w_config w))
               +:+ "-" +:+ str (SAFE_DISTANCE (w_config w)) +:+ "px"
               +:+ nl +:+ after)
  /\ (forall (Ext : Type) (w : World Ext) (v : Z),
         let w' := with_config (set_WARNING_DISTANCE v (w_config w)) w in
         fst (print_config w') = fst (print_config w)
         /\ w_stdout (snd (print_config w')) = w_stdout (snd (print_config w))
         /\ w_ext (snd (print_config w')) = w_ext (snd (print_config w))).
Proof.
  split; [reflexivity|]. split; [reflexivity|]. split; [reflexivity|].
  split; [simpl; lia|]. split.
  - intros Ext w Hm Hok.
    destruct (print_config w) as [r w1] eqn:Hrun. simpl in Hok. subst r.
    apply print_config_Ok_inv in Hrun; [|exact Hm]. subst w1.
    cbn [snd append_text w_stdout st_text].
    exists (st_text (w_stdout w)
            +:+ unlines (firstn 10 (printed_lines (w_config w)))).
    exists (unlines (skipn 11 (printed_lines (w_config w)))).
    rewrite string_app_assoc. f_equal.
    cbv beta iota delta [printed_lines unlines firstn skipn].
    rewrite !string_app_assoc. reflexivity.
  - intros Ext w v w'.
    destruct (print_config_same_outcome w' w) as (Hr & text & H1 & H2);
      try reflexivity.
    { now repeat split. }
    destruct (print_config_grows w') as [x' Hx'].
    destruct (print_config_grows w) as [x Hx].
    split; [exact Hr|].
    rewrite Hx' in H1 |- *. rewrite Hx in H2 |- *.
    cbn [append_text w_stdout w_ext st_text] in H1, H2 |- *.
    split; [|reflexivity].
    subst w'. cbn [with_config w_stdout] in H1 |- *.
    f_equal. congruence.
Qed.

Lemma WARNING_DISTANCE_redundant_witness :
  exists before after : string,
    st_text (w_stdout (snd (print_config (utf8_terminal config "")))) =
      before +:+ "  WARNING: " +:+ str 50 +:+ "-" +:+ str 100 +:+ "px"
        +:+ nl +:+ after.
Proof.
  destruct WARNING_DISTANCE_redundant as (_ & _ & _ & _ & H & _).
  apply (H unit (utf8_terminal config "")).
  - reflexivity.
  - vm_compute. reflexivity.
Defined.

(** ** The classification rule *)

Section Rule.
Variables safe danger : R.

Lemma classifies_SAFE_iff (d : R) :
  classifies safe danger d SAFE <-> (d > safe)%R.
Proof. split; [now inversion 1 | apply classifies_SAFE]. Qed.

Lemma classifies_WARNING_iff (d : R) :
  classifies safe danger d WARNING <-> (danger <= d <= safe)%R.
Proof. split; [now inversion 1 | apply classifies_WARNING]. Qed.

Lemma classifies_DANGER_iff (d : R) :
  classifies safe danger d DANGER <-> (d < danger)%R.
Proof. split; [now inversion 1 | apply classifies_DANGER]. Qed.

(** The three clauses cover the line, whatever the thresholds. *)
Lemma classifies_total (d : R) : exists s, classifies safe danger d s.
Proof.
  destruct (Rlt_le_dec safe d) as [Hs|Hs].
  - exists SAFE. now constructor.
  - destruct (Rlt_le_dec d danger) as [Hd|Hd].
    + exists DANGER. now constructor.
    + exists WARNING. now constructor.
Qed.

Hypothesis danger_le_safe : (danger <= safe)%R.

(** They overlap nowhere when the band is not inverted. *)
Lemma classifies_functional (d : R) (s s' : BoundaryState) :
  classifies safe danger d s -> classifies safe danger d s' -> s = s'.
Proof.
  intros H H'; destruct H; destruct H'; try reflexivity; exfalso; lra.
Qed.

End Rule.

(** With an inverted band the clauses for SAFE and DANGER overlap. *)
Example classifies_inverted_overlap :
  classifies 50 100 75 SAFE /\ classifies 50 100 75 DANGER.
Proof. split; constructor; lra. Qed.

Lemma Q2R_inject_Z (z : Z) : Q2R (inject_Z z) = IZR z.
Proof. unfold Q2R, inject_Z; simpl. field. Qed.

(** The program on rationals answers, and answers as the rule says. *)
Lemma classify_sound (c : Config) (q : Q) :
  exists s, classify c q = Some s /\ classifies_with c (Q2R q) s.
Proof.
  unfold classify, classifies_with.
  destruct (Qlt_le_dec (inject_Z (SAFE_DISTANCE c)) q) as [Hs|Hs].
  - exists SAFE. split; [reflexivity|]. constructor.
    apply Qlt_Rlt in Hs. rewrite Q2R_inject_Z in Hs. lra.
  - assert (Hsb : Qle_bool q (inject_Z (SAFE_DISTANCE c)) = true)
      by now apply Qle_bool_iff.
    rewrite Hsb, andb_true_r.
    apply Qle_Rle in Hs. rewrite Q2R_inject_Z in Hs.
    destruct (Qle_bool (inject_Z (DANGER_DISTANCE c)) q) eqn:Hw.
    + exists WARNING. split; [reflexivity|]. constructor.
      apply Qle_bool_iff, Qle_Rle in Hw. rewrite Q2R_inject_Z in Hw. lra.
    + destruct (Qlt_le_dec q (inject_Z (DANGER_DISTANCE c))) as [Hd|Hd].
      * exists DANGER. split; [reflexivity|]. constructor.
        apply Qlt_Rlt in Hd. rewrite Q2R_inject_Z in Hd. lra.
      * apply Qle_bool_iff in Hd. congruence.
Qed.

Lemma config_band : (IZR (DANGER_DISTANCE config) <= IZR (SAFE_DISTANCE config))%R.
Proof. simpl. lra. Qed.

(** C1: with the configured thresholds (SAFE_DISTANCE = 100,
    DANGER_DISTANCE = 50) the rule of section 4.3 gives every real distance
    [d] exactly one BoundaryState: SAFE exactly when [d > 100], WARNING
    exactly when [50 <= d <= 100], DANGER exactly when [d < 50]; so the
    state is a function of [d], and on rational distances the program
    [classify] computes it. *)
Theorem classification_exactly_one :
  SAFE_DISTANCE config = 100
  /\ DANGER_DISTANCE config = 50
  /\ (forall d : R,
         (exists s : BoundaryState,
             classifies_with config d s
             /\ forall s' : BoundaryState,
                 classifies_with config d s' -> s' = s)
         /\ (classifies_with config d SAFE <-> (d > 100)%R)
         /\ (classifies_with config d WARNING <-> (50 <= d <= 100)%R)
         /\ (classifies_with config d DANGER <-> (d < 50)%R))
  /\ (forall q : Q,
         exists s : BoundaryState,
           classify config q = Some s
           /\ forall s' : BoundaryState,
               classifies_with config (Q2R q) s' <-> s' = s).
Proof.
  split; [reflexivity|]. split; [reflexivity|]. split.
  - intros d. split; [|split; [|split]].
    + destruct (classifies_total (IZR (SAFE_DISTANCE config))
                  (IZR (DANGER_DISTANCE config)) d) as [s Hs].
      exists s. split; [exact Hs|].
      intros s' Hs'.
      exact (classifies_functional _ _ config_band d s' s Hs' Hs).
    + apply classifies_SAFE_iff.
    + apply classifies_WARNING_iff.
    + apply classifies_DANGER_iff.
  - intros q. destruct (classify_sound config q) as [s [Hc Hs]].
    exists s. split; [exact Hc|].
    intros s'. split.
    + intros Hs'. exact (classifies_functional _ _ config_band _ s' s Hs' Hs).
    + now intros ->.
Qed.

(** C2: a distance equal to SAFE_DISTANCE (100) and a distance equal to
    DANGER_DISTANCE (50) are both classified WARNING, and nothing else: both
    ends of the WARNING band are inclusive. *)
Theorem classification_boundaries_inclusive :
  (forall s : BoundaryState,
      classifies_with config (IZR (SAFE_DISTANCE config)) s <-> s = WARNING)
  /\ (forall s : BoundaryState,
         classifies_with config (IZR (DANGER_DISTANCE config)) s <-> s = WARNING)
  /\ (forall s : BoundaryState, classifies_with config 100 s <-> s = WARNING)
  /\ (forall s : BoundaryState, classifies_with config 50 s <-> s = WARNING)
  /\ classify config (inject_Z (SAFE_DISTANCE config)) = Some WARNING
  /\ classify config (inject_Z (DANGER_DISTANCE config)) = Some WARNING.
Proof.
  assert (H100 : classifies_with config 100 WARNING)
    by (constructor; simpl; lra).
  assert (H50 : classifies_with config 50 WARNING)
    by (constructor; simpl; lra).
  assert (Hone : forall d s, classifies_with config d WARNING ->
                             (classifies_with config d s <-> s = WARNING)).
  { intros d s Hw. split.
    - intros Hs. exact (classifies_functional _ _ config_band d s WARNING Hs Hw).
    - now intros ->. }
  repeat split; try reflexivity; try (now apply Hone); now intros ->.
Qed.

(** * Further properties of the module *)

(** ** The text of an integer *)

Lemma string_app_inv_head (s t u : string) : s +:+ t = s +:+ u -> t = u.
Proof.
  induction s as [|a s IH]; intros H; [exact H|].
  apply IH. now injection H.
Qed.

Lemma all_digits_app (s t : string) :
  all_digits (s +:+ t) = all_digits s && all_digits t.
Proof.
  induction s as [|a s IH]; [reflexivity|].
  change (is_digit a && all_digits (s +:+ t)
          = is_digit a && all_digits s && all_digits t).
  rewrite IH. now rewrite andb_assoc.
Qed.

Lemma pretty_N_char_digit (x : N) : is_digit (pretty_N_char x) = true.
Proof. unfold pretty_N_char. repeat case_match; reflexivity. Qed.

(** The digits are pushed in front of the accumulator. *)
Lemma pretty_N_go_digits (x : N) (s : string) :
  exists d : string,
    pretty_N_go x s = d +:+ s /\ all_digits d = true
    /\ ((0 < x)%N -> d <> "").
Proof.
  revert s. induction (N.lt_wf_0 x) as [x _ IH]; intros s.
  destruct (N.eq_dec x 0%N) as [->|Hx].
  - exists "". rewrite pretty_N_go_0. repeat split. lia.
  - assert (Hpos : (0 < x)%N) by lia.
    rewrite pretty_N_go_step by exact Hpos.
    destruct (IH (x `div` 10)%N (N.div_lt x 10 Hpos eq_refl)
                (String (pretty_N_char (x `mod` 10)) s))
      as (d & Hd & Hall & _).
    exists (d +:+ String (pretty_N_char (x `mod` 10)) "").
    rewrite Hd, string_app_assoc. split; [reflexivity|]. split.
    + rewrite all_digits_app, Hall. simpl.
      now rewrite pretty_N_char_digit.
    + intros _. destruct d; discriminate.
Qed.

Lemma pretty_N_literal (x : N) :
  exists d : string, pretty x = d /\ all_digits d = true /\ d <> "".
Proof.
  unfold pretty, pretty_N. destruct (decide (x = 0%N)) as [->|Hx].
  - exists "0". repeat split. discriminate.
  - destruct (pretty_N_go_digits x "") as (d & Hd & Hall & Hne).
    exists d. split; [|split; [exact Hall|apply Hne; lia]].
    rewrite Hd. clear. induction d as [|a d IH]; [reflexivity|].
    change (String a (d +:+ "") = String a d). now rewrite IH.
Qed.

(** [str] writes a decimal literal. *)
Lemma str_int_literal (z : Z) : int_literal (str z).
Proof.
  unfold str, pretty, pretty_Z. destruct z as [|p|p].
  - exists "0". repeat split; [discriminate|now left].
  - destruct (pretty_N_literal (N.pos p)) as (d & Hd & Hall & Hne).
    exists d. repeat split; [exact Hall|exact Hne|left; exact Hd].
  - destruct (pretty_N_literal (N.pos p)) as (d & Hd & Hall & Hne).
    exists d. repeat split; [exact Hall|exact Hne|right].
    change (String "-" (pretty p) = String "-" d). f_equal. exact Hd.
Qed.

(** Two runs of digits that stop at a character which is no digit. *)
Lemma digits_cancel (d d' : string) (c c' : ascii) (r r' : string) :
  all_digits d = true -> all_digits d' = true ->
  is_digit c = false -> is_digit c' = false ->
  d +:+ String c r = d' +:+ String c' r' ->
  d = d' /\ String c r = String c' r'.
Proof.
  revert d'. induction d as [|a d IH]; intros [|a' d'] Hd Hd' Hc Hc' H.
  - split; [reflexivity|exact H].
  - exfalso.
    change (String c r = String a' (d' +:+ String c' r')) in H.
    injection H as Ha _. subst a'.
    simpl in Hd'. rewrite Hc in Hd'. discriminate.
  - exfalso.
    change (String a (d +:+ String c r) = String c' r') in H.
    injection H as Ha _. subst a.
    simpl in Hd. rewrite Hc' in Hd. discriminate.
  - change (String a (d +:+ String c r) = String a' (d' +:+ String c' r')) in H.
    injection H as Ha H. subst a'.
    simpl in Hd, Hd'.
    apply andb_true_iff in Hd as [_ Hd]. apply andb_true_iff in Hd' as [_ Hd'].
    destruct (IH d' Hd Hd' Hc Hc' H) as [-> Hr].
    split; [reflexivity|exact Hr].
Qed.

(** The same for decimal literals: the minus sign is not a digit and a
    literal has a digit after it. *)
Lemma int_literal_cancel (s s' : string) (c c' : ascii) (r r' : string) :
  int_literal s -> int_literal s' ->
  is_digit c = false -> is_digit c' = false ->
  s +:+ String c r = s' +:+ String c' r' ->
  s = s' /\ String c r = String c' r'.
Proof.
  intros (d & Hd & Hne & Hs) (d' & Hd' & Hne' & Hs') Hc Hc' H.
  destruct Hs as [->| ->]; destruct Hs' as [->| ->].
  - exact (digits_cancel d d' c c' r r' Hd Hd' Hc Hc' H).
  - exfalso. destruct d as [|a d]; [now apply Hne|].
    change (String a (d +:+ String c r)
            = String "-" (d' +:+ String c' r')) in H.
    injection H as Ha _. subst a. simpl in Hd. discriminate.
  - exfalso. destruct d' as [|a d']; [now apply Hne'|].
    change (String "-" (d +:+ String c r)
            = String a (d' +:+ String c' r')) in H.
    injection H as Ha _. subst a. simpl in Hd'. discriminate.
  - change (String "-" (d +:+ String c r)
            = String "-" (d' +:+ String c' r')) in H.
    injection H as H.
    destruct (digits_cancel d d' c c' r r' Hd Hd' Hc Hc' H) as [-> Hr].
    split; [reflexivity|exact Hr].
Qed.

(** An integer printed in front of a separator that does not start with a
    digit can be read back, and so can what follows the separator. *)
Lemma str_sep_cancel (z z' : Z) (c : ascii) (t r r' : string) :
  is_digit c = false ->
  str z +:+ (String c t +:+ r) = str z' +:+ (String c t +:+ r') ->
  z = z' /\ r = r'.
Proof.
  intros Hc H.
  change (str z +:+ String c (t +:+ r) = str z' +:+ String c (t +:+ r')) in H.
  destruct (int_literal_cancel _ _ c c _ _
              (str_int_literal z) (str_int_literal z') Hc Hc H) as [Hz Hr].
  split.
  - unfold str in Hz. exact (inj pretty z z' Hz).
  - injection Hr as Hr. exact (string_app_inv_head t r r' Hr).
Qed.

Lemma count_nl_app (s t : string) :
  count_nl (s +:+ t) = (count_nl s + count_nl t)%nat.
Proof.
  induction s as [|a s IH]; [reflexivity|].
  change (((if Ascii.eqb a "010" then 1 else 0) + count_nl (s +:+ t))%nat
          = ((if Ascii.eqb a "010" then 1 else 0) + count_nl s
             + count_nl t)%nat).
  rewrite IH. lia.
Qed.

Lemma count_nl_digits (d : string) : all_digits d = true -> count_nl d = 0%nat.
Proof.
  induction d as [|a d IH]; [reflexivity|]. simpl. intros H.
  apply andb_true_iff in H as [Ha Hd]. rewrite (IH Hd).
  destruct (Ascii.eqb_spec a "010") as [->|_]; [discriminate|reflexivity].
Qed.

(** An integer is printed on one line. *)
Lemma count_nl_str (z : Z) : count_nl (str z) = 0%nat.
Proof.
  destruct (str_int_literal z) as (d & Hd & _ & [-> | ->]).
  - now apply count_nl_digits.
  - simpl. now apply count_nl_digits.
Qed.

(** ** What the report depends on *)

Lemma printed_lines_same_fields (c c' : Config) :
  same_report_fields c c' -> printed_lines c = printed_lines c'.
Proof.
  intros (Hw & Hh & Hf & Hy & Hx & Hs & Hd).
  unfold printed_lines. now rewrite Hw, Hh, Hf, Hy, Hx, Hs, Hd.
Qed.

Ltac skip_text H := apply string_app_inv_head in H.
Ltac read_int H Hz :=
  apply str_sep_cancel in H as [Hz H]; [|reflexivity].

(** The two names of a colour space start with different letters. *)
Lemma colour_space_cancel (b b' : bool) (r r' : string) :
  (if b then "YCrCb" else "HSV") +:+ r
  = (if b' then "YCrCb" else "HSV") +:+ r' ->
  b = b' /\ r = r'.
Proof.
  destruct b, b'; intros H; try discriminate H;
    skip_text H; (split; [reflexivity|exact H]).
Qed.

Lemma printed_lines_inj (c c' : Config) :
  unlines (printed_lines c) = unlines (printed_lines c') ->
  same_report_fields c c'.
Proof.
  intros H. unfold same_report_fields.
  cbv beta iota delta [printed_lines unlines nl] in H.
  rewrite !string_app_assoc in H.
  do 7 skip_text H.
  read_int H Hwidth. read_int H Hheight.
  skip_text H. read_int H Hfps.
  skip_text H.
  apply colour_space_cancel in H as [Hy H].
  do 2 skip_text H. read_int H Hx.
  do 5 skip_text H. read_int H Hsafe.
  do 2 skip_text H. read_int H Hdanger.
  repeat split; assumption.
Qed.



(** A call that returns on an open standard output has added the report of
    its configuration. *)
Lemma print_config_Ok_text {Ext : Type} (w : World Ext) :
  st_mode (w_stdout w) = StreamOpen ->
  fst (print_config w) = Ok tt ->
  st_text (w_stdout (snd (print_config w)))
  = st_text (w_stdout w) +:+ unlines (printed_lines (w_config w)).
Proof.
  intros Hm Hok.
  destruct (print_config w) as [r w1] eqn:Hrun. simpl in Hok. subst r.
  apply print_config_Ok_inv in Hrun; [|exact Hm]. now subst w1.
Qed.

(** X2: the report can be read back: when two calls that return on open
    standard outputs have written the same text, the configurations they
    ran with agree on the seven attributes the report shows. *)
Theorem print_config_report_injective :
  forall (Ext1 Ext2 : Type) (w1 : World Ext1) (w2 : World Ext2)
         (text : string),
    st_mode (w_stdout w1) = StreamOpen ->
    st_mode (w_stdout w2) = StreamOpen ->
    fst (print_config w1) = Ok tt ->
    fst (print_config w2) = Ok tt ->
    st_text (w_stdout (snd (print_config w1)))
    = st_text (w_stdout w1) +:+ text ->
    st_text (w_stdout (snd (print_config w2)))
    = st_text (w_stdout w2) +:+ text ->
    same_report_fields (w_config w1) (w_config w2).
Proof.
  intros Ext1 Ext2 w1 w2 text Hm1 Hm2 Hok1 Hok2 H1 H2.
  rewrite (print_config_Ok_text w1 Hm1 Hok1) in H1.
  rewrite (print_config_Ok_text w2 Hm2 Hok2) in H2.
  apply string_app_inv_head in H1. apply string_app_inv_head in H2.
  apply printed_lines_inj. congruence.
Qed.

Lemma print_config_report_injective_witness :
  same_report_fields
    (w_config (utf8_terminal config ""))
    (w_config (mkWorld (set_WARNING_DISTANCE 75 config)
                 (mkStream StreamOpen UTF_8 "log: ") 0 3%nat)).
Proof.
  apply (print_config_report_injective unit nat
           (utf8_terminal config "")
           (mkWorld (set_WARNING_DISTANCE 75 config)
              (mkStream StreamOpen UTF_8 "log: ") 0 3%nat)
           (unlines (printed_lines config)));
    vm_compute; reflexivity.
Defined.

(** X3: a call that returns on an open standard output has added exactly
    thirteen line terminators, whatever the values in [config]: no value is
    printed over several lines. *)
Theorem print_config_thirteen_lines :
  forall (Ext : Type) (w : World Ext),
    st_mode (w_stdout w) = StreamOpen ->
    fst (print_config w) = Ok tt ->
    count_nl (st_text (w_stdout (snd (print_config w))))
    = (count_nl (st_text (w_stdout w)) + 13)%nat.
Proof.
  intros Ext w Hm Hok. rewrite (print_config_Ok_text w Hm Hok).
  rewrite count_nl_app. f_equal.
  cbv beta iota delta [printed_lines unlines].
  rewrite !count_nl_app, !count_nl_str.
  destruct (USE_YCRCB (w_config w)); reflexivity.
Qed.

Lemma print_config_thirteen_lines_witness :
  count_nl (st_text (w_stdout
                       (snd (print_config (utf8_terminal config "a
b")))))
  = (count_nl (st_text (w_stdout (utf8_terminal config "a
b"))) + 13)%nat.
Proof.
  apply (print_config_thirteen_lines unit (utf8_terminal config "a
b")).
  - reflexivity.
  - vm_compute. reflexivity.
Defined.


